(** * BookmarkServer: a shallow embedding of [BookmarkServer.py]

    The server keeps a dictionary [MEMORY] from short names to long URIs.
    [do_POST] registers a pair after probing the URI with an HTTP GET,
    [do_GET] either redirects a short name or serves the form that lists
    every known pair.

    Conventions of the embedding.
    - A Python [str] is a [string] holding its UTF-8 bytes.  Concatenation,
      equality and code point order of [str] are concatenation, equality and
      bytewise order of these byte strings, and every non-ASCII character is
      made of bytes above 127 only.
    - An exception is a value [Raise e] of the type [result]; the handlers
      thread the dictionary and the list of issued HTTP requests through a
      small state-and-error monad.
    - The network is an oracle ([network]) that answers each outgoing request.
    - [urllib.parse] is followed as in CPython 3.11 ([urlsplit], [parse_qsl],
      [unquote]).  Three of its parts are not computed here and are taken as
      parameters of the development: inside [urlsplit], the validation of a
      bracketed host and that of a non-ASCII network location; inside
      [unquote], the UTF-8 decoder with replacement.
    - A handler's answer is recorded as it hands it to [http.server]: status
      code, headers and body text; [send_header] is followed where it can
      raise inside a handler.  Reading the request off the socket (lines 111
      and 112 of [do_POST] among it) and writing the answer onto it are
      outside the embedding, as is a call that never returns. *)

From Stdlib Require Import ZArith Ascii.
From stdpp Require Import gmap strings list sorting.

(** ** Python string operations used by the program and by [urllib.parse] *)

Module PyStr.

(** [c in s] *)
Fixpoint contains (c : ascii) (s : string) : bool :=
  match s with
  | EmptyString => false
  | String a s' => if decide (a = c) then true else contains c s'
  end.

(** [s.find(c)]: the index of the first [c]; [None] stands for [-1]. *)
Fixpoint find (c : ascii) (s : string) : option nat :=
  match s with
  | EmptyString => None
  | String a s' => if decide (a = c) then Some 0 else S <$> find c s'
  end.

(** [s[:n]] *)
Fixpoint take (n : nat) (s : string) : string :=
  match n, s with
  | S n', String a s' => String a (take n' s')
  | _, _ => EmptyString
  end.

(** [s[n:]] *)
Fixpoint drop (n : nat) (s : string) : string :=
  match n, s with
  | S n', String _ s' => drop n' s'
  | _, _ => s
  end.

(** [s.lstrip(chars)], the set [chars] given by its membership test. *)
Fixpoint lstrip (chars : ascii → bool) (s : string) : string :=
  match s with
  | EmptyString => EmptyString
  | String a s' => if chars a then lstrip chars s' else s
  end.

(** [s.replace(b, "")] for every [b] of a set of characters. *)
Fixpoint remove (chars : ascii → bool) (s : string) : string :=
  match s with
  | EmptyString => EmptyString
  | String a s' => if chars a then remove chars s' else String a (remove chars s')
  end.

(** [s.replace(a, b)] for single characters. *)
Fixpoint replace (a b : ascii) (s : string) : string :=
  match s with
  | EmptyString => EmptyString
  | String c s' => String (if decide (c = a) then b else c) (replace a b s')
  end.

(** [all(p(c) for c in s)] *)
Fixpoint all (p : ascii → bool) (s : string) : bool :=
  match s with
  | EmptyString => true
  | String a s' => p a && all p s'
  end.

(** The text before the first character satisfying [p], and the text from
    that character on (the whole string and nothing when there is none). *)
Fixpoint break (p : ascii → bool) (s : string) : string * string :=
  match s with
  | EmptyString => (EmptyString, EmptyString)
  | String a s' =>
      if p a then (EmptyString, s)
      else let '(l, r) := break p s' in (String a l, r)
  end.

(** [s.split(sep)] for a one-character separator: never the empty list. *)
Fixpoint split (sep : ascii) (s : string) : list string :=
  match s with
  | EmptyString => [EmptyString]
  | String a s' =>
      if decide (a = sep) then EmptyString :: split sep s'
      else match split sep s' with
           | w :: ws => String a w :: ws
           | [] => [String a EmptyString]
           end
  end.

(** [s.split(sep, 1)]: one piece, or the text before the first [sep] and the
    text after it. *)
Definition split1 (sep : ascii) (s : string) : string * option string :=
  match find sep s with
  | Some i => (take i s, Some (drop (S i) s))
  | None => (s, None)
  end.

(** [sep.join(ws)] *)
Fixpoint join (sep : string) (ws : list string) : string :=
  match ws with
  | [] => EmptyString
  | [w] => w
  | w :: ws' => w +:+ sep +:+ join sep ws'
  end.

Definition code (c : ascii) : N := N_of_ascii c.

(** [c.isascii()]: a byte of an ASCII character. *)
Definition isascii (c : ascii) : bool := (code c <? 128)%N.

Definition isupper (c : ascii) : bool := (65 <=? code c)%N && (code c <=? 90)%N.
Definition islower (c : ascii) : bool := (97 <=? code c)%N && (code c <=? 122)%N.
Definition isdigit (c : ascii) : bool := (48 <=? code c)%N && (code c <=? 57)%N.

(** [c.isascii() and c.isalpha()] *)
Definition isascii_alpha (c : ascii) : bool := isupper c || islower c.

(** [s.lower()] on ASCII letters. *)
Definition lower_char (c : ascii) : ascii :=
  if isupper c then ascii_of_N (code c + 32) else c.

Fixpoint lower (s : string) : string :=
  match s with
  | EmptyString => EmptyString
  | String a s' => String (lower_char a) (lower s')
  end.

End PyStr.

(** ** Exceptions *)

Inductive exn : Type :=
  | ValueError   (* raised by [urlparse] *)
  | IndexError   (* [l[0]] on an empty list *)
  | KeyError     (* [d[k]] on a missing key *)
  | UnicodeEncodeError    (* raised by [send_header] *)
  | NotRequestException.  (* an exception of [requests.get] that is no
                             [requests.RequestException] *)

Inductive result (A : Type) : Type :=
  | Ok (a : A)
  | Raise (e : exn).
Arguments Ok {A} a.
Arguments Raise {A} e.

Definition result_bind {A B} (r : result A) (k : A → result B) : result B :=
  match r with
  | Ok a => k a
  | Raise e => Raise e
  end.

#[global] Instance exn_eq_dec : EqDecision exn.
Proof. solve_decision. Defined.

#[global] Instance result_eq_dec `{EqDecision A} : EqDecision (result A).
Proof. solve_decision. Defined.

#[global] Instance result_mret : MRet result := @Ok.
#[global] Instance result_mbind : MBind result := λ A B k r, result_bind r k.

(** [_hexdig]: the value of a hexadecimal digit of either case. *)
Definition hex_digit (c : ascii) : option N :=
  let n := PyStr.code c in
  if PyStr.isdigit c then Some (n - 48)%N
  else if (65 <=? n)%N && (n <=? 70)%N then Some (n - 55)%N
  else if (97 <=? n)%N && (n <=? 102)%N then Some (n - 87)%N
  else None.

(** ** [urllib.parse.urlparse], as far as the program reads its result *)

(** The components of a parse the program can observe: [scheme], which
    [auto_prefix] tests, and [netloc], whose validation decides whether the
    parse raises.  The remaining components (path, params, query, fragment)
    are never read and computing them raises nothing. *)
Record ParseResult : Type := mkParseResult {
  scheme : string;
  netloc : string
}.

(** [scheme_chars]: letters, digits and [+-.] *)
Definition scheme_chars (c : ascii) : bool :=
  PyStr.isascii_alpha c || PyStr.isdigit c
  || bool_decide (c = "+"%char) || bool_decide (c = "-"%char) || bool_decide (c = "."%char).

(** [_WHATWG_C0_CONTROL_OR_SPACE]: the characters U+0000 to U+0020. *)
Definition c0_control_or_space (c : ascii) : bool := (PyStr.code c <=? 32)%N.

(** [_UNSAFE_URL_BYTES_TO_REMOVE]: tab, carriage return, line feed. *)
Definition unsafe_url_byte (c : ascii) : bool :=
  bool_decide (c = "009"%char) || bool_decide (c = "013"%char) || bool_decide (c = "010"%char).

(** [_splitnetloc(url, 2)]: the text after the two slashes up to the first of
    [/], [?], [#] (or the end), and the rest. *)
Definition netloc_delimiter (c : ascii) : bool :=
  bool_decide (c = "/"%char) || bool_decide (c = "?"%char) || bool_decide (c = "#"%char).

Definition splitnetloc (url : string) : string * string :=
  PyStr.break netloc_delimiter (PyStr.drop 2 url).

(** The scheme split of [urlsplit]: [i = url.find(':')]; when [i > 0], the
    first character is an ASCII letter and [url[:i]] is made of
    [scheme_chars], the scheme is [url[:i].lower()] and the url goes on after
    the colon. *)
Definition split_scheme (url : string) : string * string :=
  match PyStr.find ":"%char url with
  | Some (S i) =>
      if match url with String c _ => PyStr.isascii_alpha c | EmptyString => false end
         && PyStr.all scheme_chars (PyStr.take (S i) url)
      then (PyStr.lower (PyStr.take (S i) url), PyStr.drop (S (S i)) url)
      else (EmptyString, url)
  | _ => (EmptyString, url)
  end.

Section Server.

(** [_check_bracketed_netloc]: whether the host between [[] and []] is
    accepted (an IPv6 or IPvFuture literal).  Older releases have no such
    check: there every host is accepted. *)
Variable check_bracketed_netloc : string → bool.

(** [_checknetloc] on a non-ASCII network location: whether it passes the
    NFKC check. *)
Variable checknetloc_nfkc : string → bool.

Definition checknetloc (netloc : string) : bool :=
  if decide (netloc = EmptyString) then true
  else if PyStr.all PyStr.isascii netloc then true
  else checknetloc_nfkc netloc.

(** The network location of [urlsplit]: read only when the url (after its
    scheme) starts with two slashes; unmatched square brackets in it, and a
    location one of the two validations refuses, raise [ValueError]. *)
Definition parse_netloc (scheme url : string) : result ParseResult :=
  if String.prefix "//" url then
    let '(netloc, _) := splitnetloc url in
    let lb := PyStr.contains "["%char netloc in
    let rb := PyStr.contains "]"%char netloc in
    if (lb && negb rb) || (rb && negb lb) then Raise ValueError
    else if lb && rb && negb (check_bracketed_netloc netloc) then Raise ValueError
    else if checknetloc netloc then Ok (mkParseResult scheme netloc)
    else Raise ValueError
  else Ok (mkParseResult scheme EmptyString).

Definition urlparse (url : string) : result ParseResult :=
  let url := PyStr.lstrip c0_control_or_space url in
  let url := PyStr.remove unsafe_url_byte url in
  let '(scheme, url) := split_scheme url in
  parse_netloc scheme url.

(** ** [auto_prefix] *)

(** [auto_prefix] prepends [https://] when the parse has an empty scheme.
    The parse is not inside any [try]: its [ValueError] leaves the function. *)
Definition auto_prefix (uri : string) : result string :=
  let final_uri := uri in
  parsed ← urlparse uri;
  if decide (scheme parsed = EmptyString) then
    let final_uri := "https://" +:+ uri in
    Ok final_uri
  else Ok final_uri.


(** ** [urllib.parse.unquote] and [urllib.parse.parse_qs] *)

(** [bytes.decode('utf-8', 'replace')], from bytes to the UTF-8 bytes of the
    decoded text (an ill-formed sequence becomes U+FFFD). *)
Variable utf8_decode_replace : string → string.

(** [unquote_to_bytes] on an ASCII run: [%XX] becomes the byte [XX], a [%]
    not followed by two hexadecimal digits stays. *)
Fixpoint unquote_to_bytes (s : string) : string :=
  match s with
  | EmptyString => EmptyString
  | String c s' =>
      if decide (c = "%"%char) then
        match s' with
        | String a (String b rest) =>
            match hex_digit a, hex_digit b with
            | Some x, Some y => String (ascii_of_N (16 * x + y)) (unquote_to_bytes rest)
            | _, _ => String c (unquote_to_bytes s')
            end
        | _ => String c (unquote_to_bytes s')
        end
      else String c (unquote_to_bytes s')
  end.

(** An ASCII run of [unquote]: percent-decoded, then decoded as UTF-8. *)
Definition unquote_run (run : string) : string :=
  if decide (run = EmptyString) then EmptyString
  else utf8_decode_replace (unquote_to_bytes run).

(** [_asciire.split]: the maximal ASCII runs are unquoted, the non-ASCII text
    between them is kept.  [run] is the ASCII run read so far. *)
Fixpoint unquote_parts (run : string) (s : string) : string :=
  match s with
  | EmptyString => unquote_run run
  | String c s' =>
      if PyStr.isascii c then unquote_parts (run +:+ String c EmptyString) s'
      else unquote_run run +:+ String c (unquote_parts EmptyString s')
  end.

Definition unquote (s : string) : string :=
  if negb (PyStr.contains "%"%char s) then s
  else unquote_parts EmptyString s.

(** One [name=value] field of [parse_qsl] (with the defaults
    [keep_blank_values=False], [strict_parsing=False]): an empty field, a field
    without [=] and a field with an empty value give no pair. *)
Definition parse_field (name_value : string) : list (string * string) :=
  if decide (name_value = EmptyString) then []
  else match PyStr.split1 "="%char name_value with
       | (nv0, Some nv1) =>
           if decide (nv1 = EmptyString) then []
           else [(unquote (PyStr.replace "+"%char " "%char nv0),
                  unquote (PyStr.replace "+"%char " "%char nv1))]
       | (_, None) => []
       end.

Definition query_args (qs : string) : list string :=
  if decide (qs = EmptyString) then [] else PyStr.split "&"%char qs.

Definition parse_qsl (qs : string) : list (string * string) :=
  query_args qs ≫= parse_field.

(** The loop of [parse_qs]: a name seen before gets the value appended, a new
    name gets a one-element list. *)
Definition parse_qs_add (parsed_result : gmap string (list string))
    (pair : string * string) : gmap string (list string) :=
  match parsed_result !! pair.1 with
  | Some values => <[pair.1 := values ++ [pair.2]]> parsed_result
  | None => <[pair.1 := [pair.2]]> parsed_result
  end.

Definition parse_qs (qs : string) : gmap string (list string) :=
  foldl parse_qs_add ∅ (parse_qsl qs).

(** ** The outgoing HTTP request and the network *)

(** What [requests.get] is called with.  [timeout] is the keyword argument of
    that name, in seconds; [None], the library's default, waits without
    limit. *)
Record Request : Type := mkRequest {
  method : string;
  url : string;
  timeout : option Z
}.

(** What a call of [requests.get] comes to: a response (after redirects),
    with its [status_code]; one of the library's exceptions, which derive
    from [requests.RequestException]; or an exception the library lets
    through that does not (urllib3's [LocationParseError] is one). *)
Inductive Outcome : Type :=
  | Response (status_code : Z)
  | RequestException
  | OtherException.

Definition network : Type := Request → Outcome.

(** ** The state of the server and the monad of its handlers *)

(** [MEMORY] is the module's global dictionary.  [requested] lists the HTTP
    requests the server has issued, oldest first. *)
Record world : Type := mkWorld {
  MEMORY : gmap string string;
  requested : list Request
}.

(** A computation reads the network, may change the world and ends with a
    value or an exception; the world is kept when an exception is raised. *)
Definition handler (A : Type) : Type := network → world → result A * world.

Definition handler_ret {A} (a : A) : handler A := λ _ w, (Ok a, w).

Definition handler_bind {A B} (m : handler A) (k : A → handler B) : handler B :=
  λ net w,
    match m net w with
    | (Ok a, w') => k a net w'
    | (Raise e, w') => (Raise e, w')
    end.

(** A pure computation that may raise. *)
Definition lift {A} (r : result A) : handler A := λ _ w, (r, w).

#[local] Instance handler_mret : MRet handler := @handler_ret.
#[local] Instance handler_mbind : MBind handler := λ A B k m, handler_bind m k.

(** [MEMORY] read as a whole. *)
Definition read_MEMORY : handler (gmap string string) := λ _ w, (Ok (MEMORY w), w).

(** [MEMORY[key] = value] *)
Definition MEMORY_setitem (key value : string) : handler unit :=
  λ _ w, (Ok (), mkWorld (<[key := value]> (MEMORY w)) (requested w)).

(** [requests.get(uri)]: a GET request with no timeout argument; the request
    is recorded and the network answers it. *)
Definition requests_get (uri : string) : handler Outcome :=
  λ net w,
    let req := mkRequest "GET" uri None in
    (Ok (net req), mkWorld (MEMORY w) (requested w ++ [req])).

(** ** Python values returned by [check_uri] *)

(** [check_uri] is annotated [-> bool] but returns either the integer
    [req.status_code] or [False]. *)
Inductive pyval : Type :=
  | PyInt (n : Z)
  | PyBool (b : bool).

(** The truth value [if] gives to a value: an integer is true unless zero. *)
Definition truthy (v : pyval) : bool :=
  match v with
  | PyInt n => negb (n =? 0)%Z
  | PyBool b => b
  end.

(** ** [check_uri] *)

(** The prefix is applied (again) before the [try]; inside the [try] the GET
    is issued and only [requests.RequestException] is caught: any other
    exception of the request leaves the function. *)
Definition check_uri (uri : string) : handler pyval :=
  final_uri ← lift (auto_prefix uri);
  req ← requests_get final_uri;
  match req with
  | Response status_code => mret (PyInt status_code)
  | RequestException => mret (PyBool false)
  | OtherException => lift (Raise NotRequestException)
  end.

(** ** Responses *)

(** [send_response(status)], the [send_header] calls in order, and the text
    written to [wfile]. *)
Record response : Type := mkResponse {
  status : Z;
  headers : list (string * string);
  content : string
}.

#[global] Instance response_eq_dec : EqDecision response.
Proof. solve_decision. Defined.

Definition dquote : string := String "034"%char EmptyString.
Definition newline : string := String "010"%char EmptyString.

(** [FORM.format(known)]: the text of [FORM] with [known] in place of its one
    replacement field. *)
Definition FORM_format (known : string) : string :=
  PyStr.join newline
    [ "<!DOCTYPE html>";
      "<title>Bookmark Server</title>";
      "<form method=" +:+ dquote +:+ "POST" +:+ dquote +:+ ">";
      "    <label>Long URI:";
      "        <input name=" +:+ dquote +:+ "longuri" +:+ dquote +:+ ">";
      "    </label>";
      "    <br>";
      "    <label>Short name:";
      "        <input name=" +:+ dquote +:+ "shortname" +:+ dquote +:+ ">";
      "    </label>";
      "    <br>";
      "    <button type=" +:+ dquote +:+ "submit" +:+ dquote +:+ ">Save it!</button>";
      "</form>";
      "<p>URIs I know about:";
      "<pre>";
      known;
      "</pre>";
      "" ].

(** [value.encode('latin-1', 'strict')] raises nothing: every character of
    the text is at most U+00FF.  In UTF-8 such a character is an ASCII byte,
    or the byte C2 or C3 followed by one continuation byte. *)
Fixpoint latin1_encodable (value : string) : bool :=
  match value with
  | EmptyString => true
  | String c rest =>
      if PyStr.isascii c then latin1_encodable rest
      else match rest with
           | String d rest' =>
               (bool_decide (c = "194"%char) || bool_decide (c = "195"%char))
               && (128 <=? PyStr.code d)%N && (PyStr.code d <=? 191)%N
               && latin1_encodable rest'
           | EmptyString => false
           end
  end.

(** [send_header(keyword, value)], for a keyword of the program (all are
    ASCII).  On a request line with an HTTP version the header line is
    encoded as latin-1, strictly, which raises [UnicodeEncodeError]; on an
    HTTP/0.9 request line ([http09]) nothing is encoded. *)
Definition send_header (http09 : bool) (keyword value : string)
    : result (string * string) :=
  if http09 || latin1_encodable value then Ok (keyword, value)
  else Raise UnicodeEncodeError.

Definition see_other (location : string) : response :=
  mkResponse 303 [("Location", location)] "".

Definition plain_text (code : Z) (text : string) : response :=
  mkResponse code [("Content-type", "text/plain; charset=utf-8")] text.

(** The three error answers of the handlers. *)
Definition unknown_name (name : string) : response :=
  plain_text 404 ("I don't know '" +:+ name +:+ "'.").

Definition missing_fields : response :=
  plain_text 400 "You forgot to attach params!".

Definition not_fetched (longuri : string) : response :=
  plain_text 404 ("Couldn't fetch URI '" +:+ longuri +:+ "'. Sorry!").

(** ** [do_GET] *)

(** [sorted(MEMORY.keys())]: the keys in ascending order of [str]. *)
Definition sorted_keys (m : gmap string string) : list string :=
  merge_sort String.le (map_to_list m).*1.

(** The pairs the form lists: for each key of [sorted(MEMORY.keys())], the
    key and [MEMORY[key]]. *)
Definition listAll (m : gmap string string) : result (list (string * string)) :=
  mapM (λ key, match m !! key with
               | Some uri => Ok (key, uri)
               | None => Raise KeyError
               end) (sorted_keys m).

(** ["{} : {}".format(key, MEMORY[key])] *)
Definition format_entry (entry : string * string) : string :=
  entry.1 +:+ " : " +:+ entry.2.

(** [name] is [unquote(self.path[1:])].  A non-empty name is looked up and
    answered with a redirect or a 404; the root path gets the form with the
    known pairs, one per line.  [http09] says that the request line had no
    HTTP version.  The other headers and the texts written are ASCII or are
    encoded as UTF-8, which raises nothing. *)
Definition do_GET_on (http09 : bool) (path : string) : handler response :=
  let name := unquote (PyStr.drop 1 path) in
  if decide (name ≠ EmptyString) then
    memory ← read_MEMORY;
    match memory !! name with
    | Some uri =>
        location ← lift (send_header http09 "Location" uri);
        mret (mkResponse 303 [location] "")
    | None => mret (unknown_name name)
    end
  else
    memory ← read_MEMORY;
    entries ← lift (listAll memory);
    let known := PyStr.join newline (format_entry <$> entries) in
    mret (mkResponse 200 [("Content-type", "text/html")] (FORM_format known)).

(** [do_GET] on a request line with an HTTP version. *)
Definition do_GET (path : string) : handler response := do_GET_on false path.

(** ** [do_POST] *)

(** [values[0]] *)
Definition item0 (values : list string) : result string :=
  match values with
  | v :: _ => Ok v
  | [] => Raise IndexError
  end.

(** [do_POST] from line 113 on: [body] is the decoded request body, as
    lines 111 and 112 read it; a request on which these two lines raise does
    not get here.  Only requests with an HTTP version reach [do_POST], and
    its headers are ASCII.  Without both form fields the answer
    is a 400.  Otherwise the long URI is prefixed and probed; a true result of
    [check_uri] stores the pair and redirects to the root page, a false one
    answers 404. *)
Definition do_POST (body : string) : handler response :=
  let params := parse_qs body in
  match params !! "longuri", params !! "shortname" with
  | Some longuris, Some shortnames =>
      raw ← lift (item0 longuris);
      longuri ← lift (auto_prefix raw);
      shortname ← lift (item0 shortnames);
      ok ← check_uri longuri;
      if truthy ok then
        MEMORY_setitem shortname longuri;;
        mret (see_other "/")
      else
        mret (not_fetched longuri)
  | _, _ => mret missing_fields
  end.

(** ** Requests served one after the other *)

(** [GET_0_9] is a GET whose request line has no HTTP version. *)
Inductive request : Type :=
  | GET (path : string)
  | POST (body : string)
  | GET_0_9 (path : string).

Definition handle (req : request) : handler response :=
  match req with
  | GET path => do_GET path
  | POST body => do_POST body
  | GET_0_9 path => do_GET_on true path
  end.

(** The server starts with an empty dictionary. *)
Definition initial : world := mkWorld ∅ [].

(** The world after a sequence of requests, each served against the network
    of its moment.  A handler that raises ends its request only: the server
    goes on with the world as the handler left it.  The server runs each
    handler in a thread of its own; here the requests are served one at a
    time, and interleavings of handlers are outside the embedding. *)
Fixpoint run (events : list (network * request)) (w : world) : world :=
  match events with
  | [] => w
  | (net, req) :: events' => run events' (handle req net w).2
  end.

(** The short name a registration request is about: [params["shortname"][0]]. *)
Definition shortname_of (body : string) : option string :=
  parse_qs body !! "shortname" ≫= head.

(** The request is a registration of [shortname] that the server accepts in
    the world [w]: [do_POST] answers with its redirect to the root page. *)
Definition registers (shortname : string) (net : network) (req : request)
    (w : world) : bool :=
  match req with
  | POST body =>
      bool_decide ((do_POST body net w).1 = Ok (see_other "/"))
      && bool_decide (shortname_of body = Some shortname)
  | GET _ | GET_0_9 _ => false
  end.

(** No request of the sequence, served from [w] on, is an accepted
    registration of [shortname]. *)
Fixpoint unregistered (shortname : string) (events : list (network * request))
    (w : world) : bool :=
  match events with
  | [] => true
  | (net, req) :: events' =>
      negb (registers shortname net req w)
      && unregistered shortname events' (handle req net w).2
  end.

(** The long URI a registration request is about: [params["longuri"][0]]. *)
Definition longuri_of (body : string) : option string :=
  parse_qs body !! "longuri" ≫= head.

(** Lines 124 to 140 of [do_POST]: what it does once [shortname] and the raw
    [longuri] have been read from the form (see [do_POST_fields]). *)
Definition register (shortname raw : string) : handler response :=
  longuri ← lift (auto_prefix raw);
  ok ← check_uri longuri;
  if truthy ok then
    MEMORY_setitem shortname longuri;;
    mret (see_other "/")
  else
    mret (not_fetched longuri).

(** Every field of the body whose name is [key] has an empty value (there
    may be no such field at all). *)
Definition blank (key body : string) : Prop :=
  ∀ field name value,
    field ∈ query_args body →
    PyStr.split1 "="%char field = (name, Some value) →
    unquote (PyStr.replace "+"%char " "%char name) = key →
    value = EmptyString.

(** The values [parse_qs] collects under [key]: those of the pairs with that
    name, in order. *)
Definition values_of (key : string) (pairs : list (string * string)) : list string :=
  (filter (λ pair, pair.1 = key) pairs).*2.

(** An ASCII character other than the colon and the square brackets. *)
Definition plain_char (c : ascii) : bool :=
  PyStr.isascii c
  && negb (bool_decide (c = ":"%char) || bool_decide (c = "["%char)
           || bool_decide (c = "]"%char)).

(** The UTF-8 bytes of the euro sign, U+20AC. *)
Definition euro_sign : string :=
  String "226"%char (String "130"%char (String "172"%char EmptyString)).

(** The request is a form submission. *)
Definition is_POST (req : request) : bool :=
  match req with
  | POST _ => true
  | GET _ | GET_0_9 _ => false
  end.

(** Networks that answer every request alike. *)
Definition always (o : Outcome) : network := λ _, o.

(** A parser without the two further validations of the network location. *)
Definition accept_netloc : string → bool := λ _, true.

(** The decoder on well-formed UTF-8: the text has the bytes it was given. *)
Definition decode_wellformed : string → string := λ bytes, bytes.

(** * Properties *)

(** ** The URL parser and [auto_prefix] *)

Lemma parse_netloc_scheme sch url parsed :
  parse_netloc sch url = Ok parsed → scheme parsed = sch.
Proof.
  unfold parse_netloc. intros H.
  repeat case_match; simplify_eq; done.
Qed.

Lemma parse_netloc_raises sch url e :
  parse_netloc sch url = Raise e → e = ValueError.
Proof.
  unfold parse_netloc. intros H.
  repeat case_match; simplify_eq; done.
Qed.

Lemma urlparse_raises uri e : urlparse uri = Raise e → e = ValueError.
Proof.
  unfold urlparse. destruct (split_scheme _) as [sch rest].
  apply parse_netloc_raises.
Qed.

(** A text that starts with [https://] parses with the scheme [https]
    whenever it parses. *)
Lemma urlparse_https uri parsed :
  urlparse ("https://" +:+ uri) = Ok parsed → scheme parsed = "https".
Proof.
  unfold urlparse.
  change ("https://" +:+ uri) with
    (String "h" (String "t" (String "t" (String "p" (String "s"
      (String ":" (String "/" (String "/" uri)))))))).
  cbn -[parse_netloc]. apply parse_netloc_scheme.
Qed.


Lemma auto_prefix_Ok uri final :
  auto_prefix uri = Ok final →
  ∃ parsed, urlparse uri = Ok parsed ∧
    ((scheme parsed = EmptyString ∧ final = "https://" +:+ uri)
     ∨ (scheme parsed ≠ EmptyString ∧ final = uri)).
Proof.
  unfold auto_prefix. destruct (urlparse uri) as [parsed|e] eqn:E; cbn; [|done].
  case_decide; intros [= <-]; eauto.
Qed.

Lemma auto_prefix_with_scheme uri parsed :
  urlparse uri = Ok parsed → scheme parsed ≠ EmptyString → auto_prefix uri = Ok uri.
Proof. unfold auto_prefix. intros -> ?. cbn. by case_decide. Qed.

Lemma auto_prefix_without_scheme uri parsed :
  urlparse uri = Ok parsed → scheme parsed = EmptyString →
  auto_prefix uri = Ok ("https://" +:+ uri).
Proof. unfold auto_prefix. intros -> ?. cbn. by case_decide. Qed.

(** C5, at a failing input.  Normalizing the text [[] gives [https://[];
    normalizing that again raises [ValueError], since with the prefix the
    bracket stands in the network location, unmatched.  So the second
    normalization does not return what the first one did, whatever the two
    validations of the parser accept. *)
Theorem auto_prefix_twice_raises_ValueError :
  auto_prefix "[" = Ok "https://["
  ∧ auto_prefix "https://[" = Raise ValueError
  ∧ (auto_prefix "[" ≫= auto_prefix) ≠ auto_prefix "[".
Proof. split; [reflexivity|]. split; [reflexivity|]. discriminate. Qed.

(** C6.  Normalization adds a scheme only when absent.  For every input
    whose parse yields an empty scheme the result is [https://] followed by
    the input, and for every input whose parse yields a scheme the result is
    the input itself; so [example.com] becomes [https://example.com] and
    [http://example.com] stays.  [auto_prefix] is a function of its argument
    alone: it reads neither the network nor the dictionary. *)
Theorem auto_prefix_adds_scheme_only_when_absent :
  (∀ uri parsed, urlparse uri = Ok parsed →
     (scheme parsed = EmptyString → auto_prefix uri = Ok ("https://" +:+ uri))
     ∧ (scheme parsed ≠ EmptyString → auto_prefix uri = Ok uri))
  ∧ auto_prefix "example.com" = Ok "https://example.com"
  ∧ auto_prefix "http://example.com" = Ok "http://example.com".
Proof.
  split; [|split; reflexivity].
  intros uri parsed Hparse. split; intros Hscheme.
  - by eapply auto_prefix_without_scheme.
  - by eapply auto_prefix_with_scheme.
Qed.

Lemma auto_prefix_twice uri final :
  auto_prefix uri = Ok final →
  auto_prefix final = Ok final
  ∨ (auto_prefix final = Raise ValueError ∧ final = "https://" +:+ uri).
Proof.
  intros (parsed & Hparse & [[Hscheme ->]|[Hscheme ->]])%auto_prefix_Ok.
  - destruct (urlparse ("https://" +:+ uri)) as [parsed'|e] eqn:E.
    + left. eapply auto_prefix_with_scheme; [done|].
      by rewrite (urlparse_https _ _ E).
    + right. split; [|done]. unfold auto_prefix. rewrite E. cbn.
      by rewrite (urlparse_raises _ _ E).
  - left. by eapply auto_prefix_with_scheme.
Qed.

(** When [auto_prefix] returns [final] for an input and returns at all on
    [final], it returns [final] again. *)
Lemma auto_prefix_idempotent_when_it_returns uri final final' :
  auto_prefix uri = Ok final → auto_prefix final = Ok final' → final' = final.
Proof.
  intros [H|[H _]]%auto_prefix_twice; rewrite H; [by intros [= <-]|done].
Qed.

(** ** The form fields *)

Hypothesis utf8_decode_replace_nonempty :
  ∀ bytes, bytes ≠ EmptyString → utf8_decode_replace bytes ≠ EmptyString.

Lemma append_nonempty_r s c s' : s +:+ String c s' ≠ EmptyString.
Proof. by destruct s. Qed.

Lemma unquote_to_bytes_nonempty s :
  s ≠ EmptyString → unquote_to_bytes s ≠ EmptyString.
Proof.
  destruct s as [|c s]; [done|]. intros _. cbn.
  repeat case_match; done.
Qed.

Lemma unquote_parts_nonempty s run :
  run ≠ EmptyString ∨ s ≠ EmptyString → unquote_parts run s ≠ EmptyString.
Proof.
  revert run. induction s as [|c s IH]; intros run Hne; cbn.
  - destruct Hne as [Hne|]; [|done]. unfold unquote_run.
    case_decide; [done|].
    by apply utf8_decode_replace_nonempty, unquote_to_bytes_nonempty.
  - case_match.
    + apply IH. left. apply append_nonempty_r.
    + apply append_nonempty_r.
Qed.

Lemma unquote_nonempty s : s ≠ EmptyString → unquote s ≠ EmptyString.
Proof.
  intros Hne. unfold unquote. case_match; [done|].
  apply unquote_parts_nonempty. by right.
Qed.

Lemma replace_nonempty a b s :
  s ≠ EmptyString → PyStr.replace a b s ≠ EmptyString.
Proof. by destruct s. Qed.

Lemma parse_field_value field name value :
  (name, value) ∈ parse_field field →
  value ≠ EmptyString ∧
  ∃ nv0 nv1, PyStr.split1 "="%char field = (nv0, Some nv1) ∧ nv1 ≠ EmptyString
    ∧ name = unquote (PyStr.replace "+"%char " "%char nv0).
Proof.
  unfold parse_field. case_decide; [by intros ?%elem_of_nil|].
  destruct (PyStr.split1 _ _) as [nv0 [nv1|]]; [|by intros ?%elem_of_nil].
  case_decide; [by intros ?%elem_of_nil|].
  intros [= -> ->]%list_elem_of_singleton. split.
  - by apply unquote_nonempty, replace_nonempty.
  - eauto.
Qed.

Lemma parse_qsl_value qs name value :
  (name, value) ∈ parse_qsl qs →
  value ≠ EmptyString ∧
  ∃ field nv0 nv1, field ∈ query_args qs
    ∧ PyStr.split1 "="%char field = (nv0, Some nv1) ∧ nv1 ≠ EmptyString
    ∧ name = unquote (PyStr.replace "+"%char " "%char nv0).
Proof.
  unfold parse_qsl. intros (field & Hin & Hfield)%list_elem_of_bind.
  apply parse_field_value in Hin as (? & nv0 & nv1 & ? & ? & ?).
  split; [done|]. by exists field, nv0, nv1.
Qed.

Lemma parse_qs_loop key pairs (parsed : gmap string (list string)) :
  foldl parse_qs_add parsed pairs !! key =
    match parsed !! key, values_of key pairs with
    | Some old, new => Some (old ++ new)
    | None, [] => None
    | None, new => Some new
    end.
Proof.
  revert parsed. induction pairs as [|[name value] pairs IH]; intros parsed.
  - cbn. destruct (parsed !! key); by rewrite ?app_nil_r.
  - change (foldl parse_qs_add parsed ((name, value) :: pairs))
      with (foldl parse_qs_add (parse_qs_add parsed (name, value)) pairs).
    rewrite IH. unfold parse_qs_add, values_of. rewrite filter_cons. cbn [fst snd].
    case_decide as Hname.
    + subst name. rewrite fmap_cons. cbn [snd].
      destruct (parsed !! key) as [old|] eqn:Hold;
        rewrite lookup_insert_eq; [by rewrite <-app_assoc|done].
    + destruct (parsed !! name) as [other|]; rewrite lookup_insert_ne by done;
        destruct (parsed !! key); done.
Qed.

Lemma parse_qs_lookup qs key :
  parse_qs qs !! key =
    match values_of key (parse_qsl qs) with
    | [] => None
    | values => Some values
    end.
Proof. unfold parse_qs. by rewrite parse_qs_loop, lookup_empty. Qed.

(** A list of [params] is never empty: [params[key][0]] raises no
    [IndexError]. *)
Lemma parse_qs_cons qs key values :
  parse_qs qs !! key = Some values → ∃ value rest, values = value :: rest.
Proof.
  rewrite parse_qs_lookup. destruct (values_of _ _) as [|value rest]; [done|].
  intros [= <-]. eauto.
Qed.

(** Every value of [params] is a non-empty text. *)
Lemma parse_qs_value qs key values value :
  parse_qs qs !! key = Some values → value ∈ values → value ≠ EmptyString.
Proof.
  rewrite parse_qs_lookup. destruct (values_of _ _) as [|v rest] eqn:E; [done|].
  intros [= <-]. rewrite <-E. unfold values_of.
  intros ([name v'] & -> & Hin)%list_elem_of_fmap.
  apply list_elem_of_filter in Hin as [_ Hin].
  by apply parse_qsl_value in Hin as [? _].
Qed.

Lemma parse_qs_blank key qs : blank key qs → parse_qs qs !! key = None.
Proof.
  intros Hblank. rewrite parse_qs_lookup.
  destruct (values_of _ _) as [|value rest] eqn:E; [done|]. exfalso.
  assert (value ∈ values_of key (parse_qsl qs)) as Hin by (rewrite E; left).
  unfold values_of in Hin. apply list_elem_of_fmap in Hin as ([name v] & -> & Hin).
  apply list_elem_of_filter in Hin as [Hname Hin]. cbn in Hname.
  apply parse_qsl_value in Hin as (_ & field & nv0 & nv1 & ? & ? & Hne & ->).
  apply Hne. by eapply Hblank.
Qed.

(** ** The handlers, step by step *)

Ltac unfold_handler :=
  unfold mbind, mret, handler_mbind, handler_mret, handler_bind, handler_ret,
    lift, read_MEMORY, MEMORY_setitem, requests_get in *.

(** [register] written out: the two prefixes, the request, the answer. *)
Lemma register_eq shortname raw net w :
  register shortname raw net w =
    match auto_prefix raw with
    | Raise e => (Raise e, w)
    | Ok longuri =>
        match auto_prefix longuri with
        | Raise e => (Raise e, w)
        | Ok final_uri =>
            let req := mkRequest "GET" final_uri None in
            let asked := requested w ++ [req] in
            match net req with
            | Response status_code =>
                if (status_code =? 0)%Z
                then (Ok (not_fetched longuri), mkWorld (MEMORY w) asked)
                else (Ok (see_other "/"),
                      mkWorld (<[shortname := longuri]> (MEMORY w)) asked)
            | RequestException =>
                (Ok (not_fetched longuri), mkWorld (MEMORY w) asked)
            | OtherException =>
                (Raise NotRequestException, mkWorld (MEMORY w) asked)
            end
        end
    end.
Proof.
  unfold register, check_uri. unfold_handler.
  destruct (auto_prefix raw) as [longuri|e]; [|done].
  destruct (auto_prefix longuri) as [final_uri|e]; [|done]. cbn.
  destruct (net _) as [status_code| |]; [|done..]. cbn.
  by destruct (status_code =? 0)%Z.
Qed.

Lemma item_head (params : gmap string (list string)) key value :
  params !! key ≫= head = Some value →
  ∃ rest, params !! key = Some (value :: rest).
Proof.
  destruct (params !! key) as [[|v rest]|]; cbn; [done| |done].
  intros [= ->]. eauto.
Qed.

(** With both fields in the form, [do_POST] is [register] on the first value
    of each. *)
Lemma do_POST_fields body shortname raw net w :
  shortname_of body = Some shortname → longuri_of body = Some raw →
  do_POST body net w = register shortname raw net w.
Proof.
  unfold shortname_of, longuri_of.
  intros [rest Hs]%item_head [rest' Hl]%item_head.
  unfold do_POST, register. rewrite Hs, Hl. unfold_handler. cbn.
  by destruct (auto_prefix raw).
Qed.

Lemma do_POST_missing body net w :
  parse_qs body !! "shortname" = None ∨ parse_qs body !! "longuri" = None →
  do_POST body net w = (Ok missing_fields, w).
Proof.
  unfold do_POST. intros [-> | ->]; [by destruct (parse_qs body !! "longuri")|done].
Qed.

Lemma do_POST_cases body :
  (parse_qs body !! "shortname" = None ∨ parse_qs body !! "longuri" = None)
  ∨ ∃ shortname raw, shortname_of body = Some shortname ∧ longuri_of body = Some raw.
Proof.
  unfold shortname_of, longuri_of.
  destruct (parse_qs body !! "shortname") as [ss|] eqn:Hs; [|by left; left].
  destruct (parse_qs body !! "longuri") as [ls|] eqn:Hl; [|by left; right].
  apply parse_qs_cons in Hs as (s & ? & ->). apply parse_qs_cons in Hl as (l & ? & ->).
  right. by exists s, l.
Qed.

(** A registration either leaves the dictionary as it was, or is accepted and
    stores the prefixed URI under the short name. *)
Lemma register_MEMORY shortname raw net w :
  ((register shortname raw net w).1 ≠ Ok (see_other "/")
   ∧ MEMORY (register shortname raw net w).2 = MEMORY w)
  ∨ ((register shortname raw net w).1 = Ok (see_other "/")
     ∧ ∃ longuri, auto_prefix raw = Ok longuri
       ∧ MEMORY (register shortname raw net w).2 = <[shortname := longuri]> (MEMORY w)).
Proof.
  rewrite register_eq.
  destruct (auto_prefix raw) as [longuri|e]; [|by left].
  destruct (auto_prefix longuri) as [final_uri|e]; [|by left]. cbn.
  destruct (net _) as [status_code| |]; [|by left..].
  destruct (status_code =? 0)%Z; [by left|]. right. eauto.
Qed.

Lemma do_GET_world http09 path net w : (do_GET_on http09 path net w).2 = w.
Proof.
  unfold do_GET_on. unfold_handler. case_decide; cbn.
  - destruct (MEMORY w !! _); [|done]. by destruct (send_header _ _ _).
  - by destruct (listAll (MEMORY w)).
Qed.

(** A non-empty name is answered from the dictionary alone: with the 404, or
    with the redirect when the [Location] header could be encoded. *)
Lemma do_GET_name http09 path net w :
  unquote (PyStr.drop 1 path) ≠ EmptyString →
  do_GET_on http09 path net w =
    (match MEMORY w !! unquote (PyStr.drop 1 path) with
     | Some uri =>
         if http09 || latin1_encodable uri then Ok (see_other uri)
         else Raise UnicodeEncodeError
     | None => Ok (unknown_name (unquote (PyStr.drop 1 path)))
     end, w).
Proof.
  intros Hname. unfold do_GET_on. unfold_handler. case_decide; [|done]. cbn.
  destruct (MEMORY w !! _); [|done]. unfold send_header.
  by destruct (http09 || latin1_encodable _).
Qed.

(** A request that is not an accepted registration of [shortname] leaves
    the entry of [shortname] as it was. *)
Lemma handle_unregistered shortname net req w :
  registers shortname net req w = false →
  MEMORY (handle req net w).2 !! shortname = MEMORY w !! shortname.
Proof.
  destruct req as [path|body|path]; cbn.
  - intros _. unfold do_GET. by rewrite do_GET_world.
  - intros Hreg.
    destruct (do_POST_cases body) as [Hmiss|(s & raw & Hs & Hl)].
    + by rewrite (do_POST_missing _ _ _ Hmiss).
    + rewrite (do_POST_fields _ _ _ _ _ Hs Hl) in *.
      destruct (register_MEMORY s raw net w) as [[_ ->]|[Hacc (longuri & _ & ->)]];
        [done|].
      destruct (decide (s = shortname)) as [->|Hne].
      * rewrite Hacc, Hs in Hreg. by rewrite !bool_decide_eq_true_2 in Hreg.
      * by rewrite lookup_insert_ne.
  - intros _. by rewrite do_GET_world.
Qed.

Lemma run_unregistered shortname events w :
  unregistered shortname events w = true →
  MEMORY (run events w) !! shortname = MEMORY w !! shortname.
Proof.
  revert w. induction events as [|[net req] events IH]; intros w; cbn; [done|].
  intros [Hreg Hrest]%andb_true_iff. apply negb_true_iff in Hreg.
  by rewrite IH, handle_unregistered.
Qed.

(** What [register] does on each outcome of the probe, for a URI whose two
    prefixes parse. *)
Lemma register_probe shortname raw longuri net w :
  auto_prefix raw = Ok longuri → auto_prefix longuri = Ok longuri →
  let req := mkRequest "GET" longuri None in
  register shortname raw net w =
    match net req with
    | Response status_code =>
        if (status_code =? 0)%Z
        then (Ok (not_fetched longuri), mkWorld (MEMORY w) (requested w ++ [req]))
        else (Ok (see_other "/"),
              mkWorld (<[shortname := longuri]> (MEMORY w)) (requested w ++ [req]))
    | RequestException =>
        (Ok (not_fetched longuri), mkWorld (MEMORY w) (requested w ++ [req]))
    | OtherException =>
        (Raise NotRequestException, mkWorld (MEMORY w) (requested w ++ [req]))
    end.
Proof. intros H1 H2. rewrite register_eq, H1, H2. done. Qed.

(** An exception of the request itself is caught: the answer is the 404 that
    names the URI and the dictionary is left as it was. *)
Lemma register_RequestException shortname raw longuri net w :
  auto_prefix raw = Ok longuri → auto_prefix longuri = Ok longuri →
  net (mkRequest "GET" longuri None) = RequestException →
  (register shortname raw net w).1 = Ok (not_fetched longuri)
  ∧ MEMORY (register shortname raw net w).2 = MEMORY w.
Proof. intros H1 H2 Hnet. rewrite (register_probe _ _ _ _ _ H1 H2). cbn. by rewrite Hnet. Qed.

(** Any response at all, whatever its non-zero status code, is accepted. *)
Lemma register_Response shortname raw longuri net w status_code :
  auto_prefix raw = Ok longuri → auto_prefix longuri = Ok longuri →
  net (mkRequest "GET" longuri None) = Response status_code →
  status_code ≠ 0%Z →
  (register shortname raw net w).1 = Ok (see_other "/")
  ∧ MEMORY (register shortname raw net w).2 = <[shortname := longuri]> (MEMORY w).
Proof.
  intros H1 H2 Hnet Hcode. rewrite (register_probe _ _ _ _ _ H1 H2). cbn.
  rewrite Hnet. by destruct (Z.eqb_spec status_code 0).
Qed.

(** ** Registration against the probe *)

(** C1, at a failing input.  The form asks to register [x] for
    [example.com/missing] while the network answers every request with the
    status 404.  [check_uri] returns that status code, which [if] takes as
    true: the request is answered with the redirect to the root page and the
    pair is stored. *)
Theorem do_POST_accepts_status_404 w :
  do_POST "longuri=example.com/missing&shortname=x" (always (Response 404)) w
  = (Ok (see_other "/"),
     mkWorld (<["x" := "https://example.com/missing"]> (MEMORY w))
       (requested w ++ [mkRequest "GET" "https://example.com/missing" None])).
Proof.
  rewrite (do_POST_fields _ "x" "example.com/missing") by reflexivity.
  by rewrite (register_probe _ _ "https://example.com/missing") by reflexivity.
Qed.

(** A live target: the request is issued, without a timeout, and the pair is
    stored. *)
Lemma do_POST_accepts_request w :
  do_POST "longuri=example.com&shortname=x" (always (Response 200)) w
  = (Ok (see_other "/"),
     mkWorld (<["x" := "https://example.com"]> (MEMORY w))
       (requested w ++ [mkRequest "GET" "https://example.com" None])).
Proof.
  rewrite (do_POST_fields _ "x" "example.com") by reflexivity.
  by rewrite (register_probe _ _ "https://example.com") by reflexivity.
Qed.

(** C3, at a failing input.  [x] is registered for [https://old.example];
    a form then asks to register [x] for [example.com] while the network
    answers with the status 500.  The request is accepted and the earlier
    entry of [x] is replaced. *)
Theorem do_POST_replaces_entry_on_status_500 :
  let w := mkWorld {["x" := "https://old.example"]} [] in
  let after := do_POST "longuri=example.com&shortname=x" (always (Response 500)) w in
  MEMORY w !! "x" = Some "https://old.example"
  ∧ after.1 = Ok (see_other "/")
  ∧ MEMORY after.2 !! "x" = Some "https://example.com".
Proof.
  intros w after. subst after.
  rewrite (do_POST_fields _ "x" "example.com") by reflexivity.
  rewrite (register_probe _ _ "https://example.com") by reflexivity.
  cbn. split; [done|]. split; [done|]. by rewrite lookup_insert_eq.
Qed.

(** C9, at a failing input.  The form asks to register [x] for the text [[].
    [do_POST] prefixes it to [https://[]; [check_uri] prefixes again, outside
    its [try], and the parse raises [ValueError]: no answer is made, the
    exception leaves [do_POST], whatever the network and the world. *)
Theorem do_POST_raises_ValueError net w :
  do_POST "longuri=[&shortname=x" net w = (Raise ValueError, w).
Proof.
  rewrite (do_POST_fields _ "x" "[") by reflexivity.
  by rewrite register_eq.
Qed.

(** C4, at every input.  The claim asks for a bounded timeout on every
    probe.  The one request a registration issues is a GET of the prefixed
    URI called with no timeout argument at all, which for [requests.get]
    means to wait without limit: a target that accepts the connection and
    stays silent holds the worker for ever. *)
Theorem probe_is_one_GET_without_timeout body net w :
  ∃ probes, requested (do_POST body net w).2 = requested w ++ probes
    ∧ (probes = []
       ∨ ∃ raw longuri, longuri_of body = Some raw ∧ auto_prefix raw = Ok longuri
           ∧ probes = [mkRequest "GET" longuri None]).
Proof.
  destruct (do_POST_cases body) as [Hmiss|(s & raw & Hs & Hl)].
  - rewrite (do_POST_missing _ _ _ Hmiss). exists []. by rewrite app_nil_r; auto.
  - rewrite (do_POST_fields _ _ _ _ _ Hs Hl), register_eq.
    destruct (auto_prefix raw) as [longuri|e] eqn:H1;
      [|exists []; by rewrite app_nil_r; auto].
    destruct (auto_prefix_twice _ _ H1) as [H2|[H2 _]]; rewrite H2;
      [|exists []; by rewrite app_nil_r; auto].
    exists [mkRequest "GET" longuri None]. split.
    + cbn. destruct (net _) as [status_code| |]; [|done..].
      by destruct (status_code =? 0)%Z.
    + right. by exists raw, longuri.
Qed.

(** ** Lookup *)

(** X18.  After an accepted registration the dictionary holds the prefixed
    URI under the short name for as long as no request is an accepted
    registration of that name; a lookup of the name then sends the redirect
    when the [Location] header can be encoded, and raises otherwise. *)
Theorem lookup_after_register body net w shortname raw :
  shortname_of body = Some shortname → longuri_of body = Some raw →
  (do_POST body net w).1 = Ok (see_other "/") →
  ∃ longuri, auto_prefix raw = Ok longuri ∧
    ∀ events, unregistered shortname events (do_POST body net w).2 = true →
      let w' := run events (do_POST body net w).2 in
      MEMORY w' !! shortname = Some longuri
      ∧ ∀ http09 path net', unquote (PyStr.drop 1 path) = shortname →
          do_GET_on http09 path net' w'
          = (if http09 || latin1_encodable longuri then Ok (see_other longuri)
             else Raise UnicodeEncodeError, w').
Proof.
  intros Hs Hl. rewrite (do_POST_fields _ _ _ _ _ Hs Hl). intros Hacc.
  destruct (register_MEMORY shortname raw net w)
    as [[Hno _]|[_ (longuri & Hprefix & Hmem)]]; [done|].
  exists longuri. split; [done|]. intros events Hun w'.
  assert (MEMORY w' !! shortname = Some longuri) as Hlook.
  { subst w'. rewrite (run_unregistered _ _ _ Hun), Hmem. apply lookup_insert_eq. }
  split; [done|]. intros http09 path net' Hname.
  assert (shortname ≠ EmptyString) as Hne.
  { apply item_head in Hs as [rest Hs].
    eapply parse_qs_value; [exact Hs|left]. }
  rewrite do_GET_name by by rewrite Hname. by rewrite Hname, Hlook.
Qed.

(** C2, at a failing input.  The form asks to register [e] for
    [http://example.com/] followed by the euro sign, and the target answers
    200: the request is accepted and the dictionary holds the URI under
    [e].  The lookup [GET /e] (with an HTTP version) then finds the entry,
    but [send_header('Location', MEMORY[name])] cannot encode the euro sign
    as latin-1: [UnicodeEncodeError] leaves [do_GET] and no redirect is
    sent, whatever the network. *)
Theorem do_GET_raises_UnicodeEncodeError :
  let uri := "http://example.com/" +:+ euro_sign in
  let after := do_POST ("longuri=" +:+ uri +:+ "&shortname=e")
                 (always (Response 200)) initial in
  after.1 = Ok (see_other "/")
  ∧ MEMORY after.2 !! "e" = Some uri
  ∧ ∀ net, do_GET "/e" net after.2 = (Raise UnicodeEncodeError, after.2).
Proof.
  intros uri after.
  assert (after = (Ok (see_other "/"),
                   mkWorld {["e" := uri]} [mkRequest "GET" uri None])) as ->.
  { subst after. rewrite (do_POST_fields _ "e" uri) by reflexivity.
    by rewrite (register_probe _ _ uri) by reflexivity. }
  split; [done|]. split; [done|]. intros net. unfold do_GET.
  by rewrite do_GET_name.
Qed.

(** C8.  From the start of the server, as long as no request is an accepted
    registration of a name, the dictionary has no entry for it and its lookup
    is answered with the 404 that names it. *)
Theorem resolve_unregistered events name :
  unregistered name events initial = true →
  MEMORY (run events initial) !! name = None
  ∧ ∀ path net, unquote (PyStr.drop 1 path) = name → name ≠ EmptyString →
      do_GET path net (run events initial)
      = (Ok (unknown_name name), run events initial).
Proof.
  intros Hun.
  assert (MEMORY (run events initial) !! name = None) as Hlook.
  { rewrite (run_unregistered _ _ _ Hun). apply lookup_empty. }
  split; [done|]. intros path net Hname Hne. unfold do_GET.
  rewrite do_GET_name by by rewrite Hname. by rewrite Hname, Hlook.
Qed.

(** ** The listing *)

Lemma sorted_keys_Permutation (m : gmap string string) :
  sorted_keys m ≡ₚ (map_to_list m).*1.
Proof. apply merge_sort_Permutation. Qed.

Lemma elem_of_sorted_keys (m : gmap string string) key :
  key ∈ sorted_keys m ↔ is_Some (m !! key).
Proof.
  rewrite sorted_keys_Permutation, list_elem_of_fmap. split.
  - intros ([k uri] & -> & Hin). apply elem_of_map_to_list in Hin. by exists uri.
  - intros [uri Huri]. exists (key, uri). by rewrite elem_of_map_to_list.
Qed.

(** Reading [MEMORY[key]] for keys that are all in the dictionary raises no
    [KeyError] and pairs each key with its value. *)
Lemma mapM_getitem (m : gmap string string) keys :
  (∀ key, key ∈ keys → is_Some (m !! key)) →
  ∃ entries,
    mapM (λ key, match m !! key with
                 | Some uri => Ok (key, uri)
                 | None => Raise KeyError
                 end) keys = Ok entries
    ∧ entries.*1 = keys
    ∧ Forall (λ entry, m !! entry.1 = Some entry.2) entries.
Proof.
  induction keys as [|key keys IH]; intros Hin.
  - by exists [].
  - destruct IH as (entries & Hmap & Hfst & Hall).
    { intros k Hk. apply Hin. by right. }
    destruct (Hin key) as [uri Huri]; [by left|].
    exists ((key, uri) :: entries). split; [|split].
    + match goal with |- mapM ?f _ = _ =>
        change (mapM f (key :: keys))
          with (f key ≫= λ y, mapM f keys ≫= λ k, mret (y :: k))
      end.
      by rewrite Hmap, Huri.
    + cbn. by rewrite Hfst.
    + by constructor.
Qed.

Lemma listAll_Ok (m : gmap string string) : ∃ entries, listAll m = Ok entries.
Proof.
  destruct (mapM_getitem m (sorted_keys m)) as (entries & Hmap & _).
  { intros key. by rewrite elem_of_sorted_keys. }
  by exists entries.
Qed.

(** C7.  In every state of the dictionary the listing is made without
    error, its short names are in ascending order and pairwise distinct, and
    its pairs are exactly the entries of the dictionary. *)
Theorem listAll_sorted_without_duplicates (m : gmap string string) :
  ∃ entries, listAll m = Ok entries
    ∧ StronglySorted String.le entries.*1
    ∧ NoDup entries.*1
    ∧ ∀ shortname uri, (shortname, uri) ∈ entries ↔ m !! shortname = Some uri.
Proof.
  destruct (mapM_getitem m (sorted_keys m)) as (entries & Hmap & Hfst & Hall).
  { intros key. by rewrite elem_of_sorted_keys. }
  exists entries. split; [done|]. rewrite Hfst. split; [|split].
  - apply StronglySorted_merge_sort; apply _.
  - rewrite sorted_keys_Permutation. apply NoDup_fst_map_to_list.
  - rewrite Forall_forall in Hall. intros shortname uri. split.
    + intros Hin. apply (Hall _ Hin).
    + intros Hlook.
      assert (shortname ∈ entries.*1) as Hkey.
      { rewrite Hfst, elem_of_sorted_keys. by exists uri. }
      apply list_elem_of_fmap in Hkey as ([k uri'] & -> & Hin).
      pose proof (Hall _ Hin) as Hlook'. cbn in *.
      by replace uri with uri' by congruence.
Qed.

(** The root path is answered with the form over that listing, one pair per
    line. *)
Lemma do_GET_root http09 path net w :
  unquote (PyStr.drop 1 path) = EmptyString →
  ∃ entries, listAll (MEMORY w) = Ok entries
    ∧ do_GET_on http09 path net w =
        (Ok (mkResponse 200 [("Content-type", "text/html")]
               (FORM_format (PyStr.join newline (format_entry <$> entries)))), w).
Proof.
  intros Hname.
  destruct (listAll_Ok (MEMORY w)) as [entries Hlist].
  exists entries. split; [done|].
  unfold do_GET_on. unfold_handler. case_decide; [done|]. cbn. by rewrite Hlist.
Qed.

(** ** Blank form fields *)

(** C10, as amended.  A field with an empty value gives no pair, so no value
    of the parsed form is ever empty.  When every [shortname] field of the
    body, or every [longuri] field, has an empty value (or there is none),
    the request is answered with the 400 and the world is left as it was: no
    probe, no change of the dictionary; so it is for the body
    [shortname=&longuri=x].  The short name and the raw URI that a request
    brings to the registration are never empty. *)
Theorem blank_fields_are_dropped :
  (∀ qs name value, (name, value) ∈ parse_qsl qs → value ≠ EmptyString)
  ∧ (∀ key body net w, key = "shortname" ∨ key = "longuri" → blank key body →
       do_POST body net w = (Ok missing_fields, w))
  ∧ (∀ net w, do_POST "shortname=&longuri=x" net w = (Ok missing_fields, w))
  ∧ (∀ body shortname, shortname_of body = Some shortname → shortname ≠ EmptyString)
  ∧ (∀ body raw, longuri_of body = Some raw → raw ≠ EmptyString).
Proof.
  split; [|split; [|split; [|split]]].
  - intros qs name value Hin. by apply parse_qsl_value in Hin as [? _].
  - intros key body net w Hkey Hblank. apply do_POST_missing.
    apply parse_qs_blank in Hblank. destruct Hkey as [-> | ->]; auto.
  - intros net w. apply do_POST_missing. by left.
  - intros body shortname [rest H]%item_head.
    eapply parse_qs_value; [exact H|left].
  - intros body raw [rest H]%item_head.
    eapply parse_qs_value; [exact H|left].
Qed.

(** * Further properties of the handlers *)

(** ** What a registration request comes to *)

(** The answer of [do_POST] is made from the body and the network alone. *)
Lemma do_POST_answer body net w w' : (do_POST body net w).1 = (do_POST body net w').1.
Proof.
  destruct (do_POST_cases body) as [Hmiss|(s & raw & Hs & Hl)].
  - by rewrite !(do_POST_missing _ _ _ Hmiss).
  - rewrite !(do_POST_fields _ _ _ _ _ Hs Hl), !register_eq.
    destruct (auto_prefix raw) as [longuri|e]; [|done].
    destruct (auto_prefix longuri) as [final_uri|e]; [|done]. cbn.
    destruct (net _) as [status_code| |]; [|done..].
    by destruct (status_code =? 0)%Z.
Qed.

(** Over all worlds alike, a request either leaves the dictionary as it is
    or writes one and the same entry. *)
Lemma do_POST_changes_store body net :
  (∀ w, MEMORY (do_POST body net w).2 = MEMORY w)
  ∨ ∃ shortname longuri,
      ∀ w, MEMORY (do_POST body net w).2 = <[shortname := longuri]> (MEMORY w).
Proof.
  destruct (do_POST_cases body) as [Hmiss|(s & raw & Hs & Hl)].
  - left. intros w. by rewrite (do_POST_missing _ _ _ Hmiss).
  - destruct (auto_prefix raw) as [longuri|e] eqn:H1.
    2:{ left. intros w. by rewrite (do_POST_fields _ _ _ _ _ Hs Hl), register_eq, H1. }
    destruct (auto_prefix longuri) as [final_uri|e] eqn:H2.
    2:{ left. intros w. by rewrite (do_POST_fields _ _ _ _ _ Hs Hl), register_eq, H1, H2. }
    destruct (net (mkRequest "GET" final_uri None)) as [status_code| |] eqn:Hnet.
    2,3:(left; intros w;
         rewrite (do_POST_fields _ _ _ _ _ Hs Hl), register_eq, H1, H2; cbn;
         by rewrite Hnet).
    destruct (status_code =? 0)%Z eqn:Hcode.
    + left. intros w.
      rewrite (do_POST_fields _ _ _ _ _ Hs Hl), register_eq, H1, H2. cbn.
      by rewrite Hnet, Hcode.
    + right. exists s, longuri. intros w.
      rewrite (do_POST_fields _ _ _ _ _ Hs Hl), register_eq, H1, H2. cbn.
      by rewrite Hnet, Hcode.
Qed.

(** X1.  A registration is accepted exactly when both prefixes parse and the
    request comes back with a response whose status code is not zero. *)
Theorem do_POST_accepted_iff body net w shortname raw :
  shortname_of body = Some shortname → longuri_of body = Some raw →
  (do_POST body net w).1 = Ok (see_other "/") ↔
  ∃ longuri status_code,
    auto_prefix raw = Ok longuri ∧ auto_prefix longuri = Ok longuri
    ∧ net (mkRequest "GET" longuri None) = Response status_code
    ∧ status_code ≠ 0%Z.
Proof.
  intros Hs Hl. rewrite (do_POST_fields _ _ _ _ _ Hs Hl), register_eq. split.
  - destruct (auto_prefix raw) as [longuri|e] eqn:H1; [|done].
    destruct (auto_prefix_twice _ _ H1) as [H2|[H2 _]]; rewrite H2; [|done]. cbn.
    destruct (net _) as [status_code| |] eqn:Hnet; [|done..].
    destruct (Z.eqb_spec status_code 0); [done|]. intros _.
    by exists longuri, status_code.
  - intros (longuri & status_code & -> & -> & Hnet & Hcode). cbn. rewrite Hnet.
    by destruct (Z.eqb_spec status_code 0).
Qed.


(** X3.  When the request of the probe raises [requests.RequestException], the
    answer is the 404 that names the prefixed URI; the request is on record
    and the dictionary is as before. *)
Theorem do_POST_rejects_on_RequestException body net w shortname raw longuri :
  shortname_of body = Some shortname → longuri_of body = Some raw →
  auto_prefix raw = Ok longuri → auto_prefix longuri = Ok longuri →
  net (mkRequest "GET" longuri None) = RequestException →
  do_POST body net w
  = (Ok (not_fetched longuri),
     mkWorld (MEMORY w) (requested w ++ [mkRequest "GET" longuri None])).
Proof.
  intros Hs Hl H1 H2 Hnet.
  rewrite (do_POST_fields _ _ _ _ _ Hs Hl), (register_probe _ _ _ _ _ H1 H2).
  cbn. by rewrite Hnet.
Qed.


(** X5.  Registering the same form again against the same network gives the same
    answer and leaves the dictionary as the first registration left it. *)
Theorem do_POST_again body net w :
  let once := do_POST body net w in
  let twice := do_POST body net once.2 in
  twice.1 = once.1 ∧ MEMORY twice.2 = MEMORY once.2.
Proof.
  intros once twice. subst once twice. split; [apply do_POST_answer|].
  destruct (do_POST_changes_store body net) as [Hsame|(s & longuri & Hins)].
  - by rewrite (Hsame (do_POST body net w).2).
  - rewrite (Hins (do_POST body net w).2), (Hins w). apply insert_insert_eq.
Qed.

(** ** Lookups *)


(** ** Invariants of a run *)

Lemma append_length s1 s2 :
  String.length (s1 +:+ s2) = String.length s1 + String.length s2.
Proof. induction s1 as [|c s1 IH]; [done|]. cbn. by rewrite <-IH. Qed.

(** A text the prefix maps to itself parses with a scheme. *)
Lemma auto_prefix_fixed_scheme uri :
  auto_prefix uri = Ok uri →
  ∃ parsed, urlparse uri = Ok parsed ∧ scheme parsed ≠ EmptyString.
Proof.
  intros (parsed & Hparse & [[_ Heq]|[Hscheme _]])%auto_prefix_Ok; [|by eauto].
  apply (f_equal String.length) in Heq. rewrite append_length in Heq.
  cbn in Heq. lia.
Qed.

(** What a registration stores has gone through both prefixes. *)
Lemma register_store shortname raw net w :
  (MEMORY (register shortname raw net w).2 = MEMORY w
   ∧ (requested (register shortname raw net w).2 = requested w
      ∨ ∃ longuri, auto_prefix longuri = Ok longuri
          ∧ requested (register shortname raw net w).2
            = requested w ++ [mkRequest "GET" longuri None]))
  ∨ ∃ longuri, auto_prefix longuri = Ok longuri
      ∧ MEMORY (register shortname raw net w).2 = <[shortname := longuri]> (MEMORY w)
      ∧ requested (register shortname raw net w).2
        = requested w ++ [mkRequest "GET" longuri None].
Proof.
  rewrite register_eq.
  destruct (auto_prefix raw) as [longuri|e] eqn:H1; [|left; by auto].
  destruct (auto_prefix_twice _ _ H1) as [H2|[H2 _]]; rewrite H2; [|left; by auto].
  cbn. destruct (net _) as [status_code| |]; [|left; by eauto..].
  destruct (status_code =? 0)%Z; [left; by eauto|]. right. by exists longuri.
Qed.

(** One request: the dictionary is kept or gets one entry, under the short
    name of the form, whose URI the prefix maps to itself; at most one
    request is issued, by a form submission, a GET of such a URI with no
    timeout. *)
Lemma handle_step req net w :
  (MEMORY (handle req net w).2 = MEMORY w
   ∨ ∃ body shortname longuri,
       req = POST body ∧ shortname_of body = Some shortname
       ∧ auto_prefix longuri = Ok longuri
       ∧ MEMORY (handle req net w).2 = <[shortname := longuri]> (MEMORY w))
  ∧ (requested (handle req net w).2 = requested w
     ∨ ∃ longuri, is_POST req = true ∧ auto_prefix longuri = Ok longuri
         ∧ requested (handle req net w).2
           = requested w ++ [mkRequest "GET" longuri None]).
Proof.
  destruct req as [path|body|path]; cbn.
  - unfold do_GET. rewrite do_GET_world. by auto.
  - destruct (do_POST_cases body) as [Hmiss|(s & raw & Hs & Hl)].
    + rewrite (do_POST_missing _ _ _ Hmiss). by auto.
    + rewrite (do_POST_fields _ _ _ _ _ Hs Hl).
      destruct (register_store s raw net w)
        as [[-> [->|(longuri & ? & ->)]]|(longuri & ? & -> & ->)].
      * by auto.
      * split; [by left|]. right. by exists longuri.
      * split; right; [by exists body, s, longuri|by exists longuri].
  - rewrite do_GET_world. by auto.
Qed.

(** A property of pairs that every stored pair has holds of every entry
    after a run, when it holds of every entry before. *)
Lemma run_entries (P : string → string → Prop) events w :
  (∀ body shortname longuri,
     shortname_of body = Some shortname → auto_prefix longuri = Ok longuri →
     P shortname longuri) →
  (∀ name uri, MEMORY w !! name = Some uri → P name uri) →
  ∀ name uri, MEMORY (run events w) !! name = Some uri → P name uri.
Proof.
  intros Hstored. revert w.
  induction events as [|[net req] events IH]; intros w Hw; cbn; [done|].
  apply IH. intros name uri.
  destruct (handle_step req net w) as [[->|(body & s & longuri & _ & Hs & Hp & ->)] _];
    [by apply Hw|].
  destruct (decide (s = name)) as [->|Hne].
  - rewrite lookup_insert_eq. intros [= <-]. by eapply Hstored.
  - rewrite lookup_insert_ne by done. apply Hw.
Qed.

(** X7.  No entry is ever removed: a name in the dictionary stays in it, whatever
    requests follow. *)
Theorem run_keeps_names events w :
  dom (MEMORY w) ⊆ dom (MEMORY (run events w)).
Proof.
  revert w. induction events as [|[net req] events IH]; intros w; cbn; [done|].
  etrans; [|apply IH].
  destruct (handle_step req net w) as [[->|(? & s & longuri & _ & _ & _ & ->)] _];
    [done|apply dom_insert_subseteq].
Qed.

(** X8.  Every URI the server ever stores carries a scheme: [auto_prefix] maps
    it to itself and its parse has a non-empty scheme. *)
Theorem stored_uris_have_a_scheme events name uri :
  MEMORY (run events initial) !! name = Some uri →
  auto_prefix uri = Ok uri
  ∧ ∃ parsed, urlparse uri = Ok parsed ∧ scheme parsed ≠ EmptyString.
Proof.
  intros Hlook.
  assert (auto_prefix uri = Ok uri) as Hfix.
  { revert name uri Hlook.
    apply (run_entries (λ _ uri, auto_prefix uri = Ok uri)); [done|].
    intros name uri H. cbn in H. by rewrite lookup_empty in H. }
  split; [done|]. by apply auto_prefix_fixed_scheme.
Qed.


(** X10.  The requests a run issues: at most one for each form submission, none
    for a lookup or the root page; each is a GET without a timeout, of a URI
    that [auto_prefix] maps to itself. *)
Theorem run_requests events w :
  ∃ probes, requested (run events w) = requested w ++ probes
    ∧ length probes ≤ length (filter (λ event, is_POST event.2) events)
    ∧ Forall (λ req, method req = "GET" ∧ timeout req = None
                     ∧ auto_prefix (url req) = Ok (url req)) probes.
Proof.
  revert w. induction events as [|[net req] events IH]; intros w.
  - exists []. by rewrite app_nil_r.
  - cbn [run]. destruct (IH (handle req net w).2) as (probes & -> & Hlen & Hall).
    rewrite filter_cons. cbn [snd].
    destruct (handle_step req net w) as [_ [->|(longuri & Hpost & Hp & ->)]].
    + exists probes. split; [done|]. split; [|done].
      case_decide; cbn; lia.
    + exists (mkRequest "GET" longuri None :: probes).
      rewrite <-app_assoc. split; [done|]. split.
      * rewrite decide_True by by rewrite Hpost. cbn. lia.
      * by constructor.
Qed.


(** ** Registration and the listing *)

Lemma listAll_lookup (m : gmap string string) :
  ∃ entries, listAll m = Ok entries
    ∧ ∀ shortname uri, (shortname, uri) ∈ entries ↔ m !! shortname = Some uri.
Proof.
  destruct (mapM_getitem m (sorted_keys m)) as (entries & Hmap & Hfst & Hall).
  { intros key. by rewrite elem_of_sorted_keys. }
  exists entries. split; [done|].
  rewrite Forall_forall in Hall. intros shortname uri. split.
  - intros Hin. apply (Hall _ Hin).
  - intros Hlook.
    assert (shortname ∈ entries.*1) as Hkey.
    { rewrite Hfst, elem_of_sorted_keys. by exists uri. }
    apply list_elem_of_fmap in Hkey as ([k uri'] & -> & Hin).
    pose proof (Hall _ Hin) as Hlook'. cbn in *.
    by replace uri with uri' by congruence.
Qed.

(** X12.  An accepted pair is on the root page: the form served for [/] right
    after lists the short name with the prefixed URI. *)
Theorem registered_is_listed body net w shortname raw net' :
  shortname_of body = Some shortname → longuri_of body = Some raw →
  (do_POST body net w).1 = Ok (see_other "/") →
  ∃ longuri entries,
    auto_prefix raw = Ok longuri
    ∧ (shortname, longuri) ∈ entries
    ∧ do_GET "/" net' (do_POST body net w).2
      = (Ok (mkResponse 200 [("Content-type", "text/html")]
               (FORM_format (PyStr.join newline (format_entry <$> entries)))),
         (do_POST body net w).2).
Proof.
  intros Hs Hl. rewrite (do_POST_fields _ _ _ _ _ Hs Hl). intros Hacc.
  destruct (register_MEMORY shortname raw net w)
    as [[Hno _]|[_ (longuri & Hprefix & Hmem)]]; [done|].
  destruct (listAll_lookup (MEMORY (register shortname raw net w).2))
    as (entries & Hlist & Hin).
  destruct (do_GET_root false "/" net' (register shortname raw net w).2)
    as (entries' & Hlist' & Hget); [done|].
  rewrite Hlist in Hlist'. injection Hlist' as <-.
  exists longuri, entries. split; [done|]. split; [|done].
  apply Hin. rewrite Hmem. apply lookup_insert_eq.
Qed.

(** ** Texts and their characters *)

Lemma append_cons c s1 s2 : String c s1 +:+ s2 = String c (s1 +:+ s2).
Proof. done. Qed.

Lemma all_impl (p q : ascii → bool) s :
  (∀ c, p c = true → q c = true) → PyStr.all p s = true → PyStr.all q s = true.
Proof.
  intros Hpq. induction s as [|c s IH]; cbn; [done|].
  intros [Hc Hs]%andb_true_iff. by rewrite (Hpq _ Hc), IH.
Qed.

Lemma all_append p s1 s2 :
  PyStr.all p (s1 +:+ s2) = PyStr.all p s1 && PyStr.all p s2.
Proof.
  induction s1 as [|c s1 IH]; [done|].
  rewrite append_cons. cbn. by rewrite IH, andb_assoc.
Qed.

Lemma all_lstrip p chars s :
  PyStr.all p s = true → PyStr.all p (PyStr.lstrip chars s) = true.
Proof.
  induction s as [|c s IH]; cbn; [done|].
  intros [Hc Hs]%andb_true_iff. destruct (chars c); [by apply IH|].
  cbn. by rewrite Hc, Hs.
Qed.

Lemma all_remove p chars s :
  PyStr.all p s = true → PyStr.all p (PyStr.remove chars s) = true.
Proof.
  induction s as [|c s IH]; cbn; [done|].
  intros [Hc Hs]%andb_true_iff. destruct (chars c); [by apply IH|].
  cbn. by rewrite Hc, IH.
Qed.

Lemma all_drop p n s :
  PyStr.all p s = true → PyStr.all p (PyStr.drop n s) = true.
Proof.
  revert s. induction n as [|n IH]; intros [|c s]; cbn; try done.
  intros [_ Hs]%andb_true_iff. by apply IH.
Qed.

Lemma all_break p delim s :
  PyStr.all p s = true → PyStr.all p (PyStr.break delim s).1 = true.
Proof.
  induction s as [|c s IH]; cbn; [done|].
  intros [Hc Hs]%andb_true_iff. destruct (delim c); [done|].
  destruct (PyStr.break delim s) as [l r]. cbn in *. by rewrite Hc, IH.
Qed.

Lemma all_contains p c s :
  PyStr.all p s = true → p c = false → PyStr.contains c s = false.
Proof.
  intros Hall Hc. induction s as [|a s IH]; cbn; [done|].
  cbn in Hall. apply andb_true_iff in Hall as [Ha Hs].
  case_decide; [congruence|by apply IH].
Qed.

Lemma find_None c s : PyStr.contains c s = false → PyStr.find c s = None.
Proof.
  induction s as [|a s IH]; cbn; [done|].
  case_decide; [done|]. intros Hs. by rewrite IH.
Qed.

Lemma remove_id chars s :
  PyStr.all (λ c, negb (chars c)) s = true → PyStr.remove chars s = s.
Proof.
  induction s as [|c s IH]; cbn; [done|].
  intros [Hc Hs]%andb_true_iff. apply negb_true_iff in Hc. by rewrite Hc, IH.
Qed.

(** Around the first [sep] of a text. *)
Lemma find_append sep s1 s2 :
  PyStr.contains sep s1 = false →
  PyStr.find sep (s1 +:+ String sep s2) = Some (String.length s1).
Proof.
  induction s1 as [|c s1 IH].
  - intros _. change (EmptyString +:+ String sep s2) with (String sep s2).
    cbn. by rewrite decide_True.
  - cbn. case_decide; [done|]. intros Hs. rewrite append_cons. cbn.
    rewrite decide_False by done. by rewrite IH.
Qed.

Lemma take_append s1 s2 : PyStr.take (String.length s1) (s1 +:+ s2) = s1.
Proof.
  induction s1 as [|c s1 IH]; cbn; [by destruct s2|].
  rewrite append_cons. cbn. by rewrite IH.
Qed.

Lemma drop_append s1 c s2 :
  PyStr.drop (S (String.length s1)) (s1 +:+ String c s2) = s2.
Proof. induction s1 as [|a s1 IH]; cbn; [done|]. by rewrite append_cons. Qed.

Lemma scheme_char_facts c :
  scheme_chars c = true →
  unsafe_url_byte c = false ∧ c ≠ ":"%char.
Proof. by destruct c as [[] [] [] [] [] [] [] []]. Qed.

Lemma letter_facts c :
  PyStr.isascii_alpha c = true →
  scheme_chars c = true ∧ c0_control_or_space c = false.
Proof. by destruct c as [[] [] [] [] [] [] [] []]. Qed.

Lemma digit_facts c :
  PyStr.isdigit c = true → unsafe_url_byte c = false ∧ c ≠ "/"%char.
Proof. by destruct c as [[] [] [] [] [] [] [] []]. Qed.

Lemma plain_char_facts c :
  plain_char c = true →
  PyStr.isascii c = true ∧ c ≠ ":"%char ∧ c ≠ "["%char ∧ c ≠ "]"%char.
Proof. by destruct c as [[] [] [] [] [] [] [] []]. Qed.

(** ** More on [auto_prefix] *)

(** X13.  The result of [auto_prefix] is its input, with or without [https://] in
    front, and whenever the result parses, it parses with a scheme. *)
Theorem auto_prefix_result uri final :
  auto_prefix uri = Ok final →
  (final = uri ∨ final = "https://" +:+ uri)
  ∧ ∀ parsed, urlparse final = Ok parsed → scheme parsed ≠ EmptyString.
Proof.
  intros (parsed0 & Hparse & [[Hscheme ->]|[Hscheme ->]])%auto_prefix_Ok.
  - split; [by right|]. intros parsed H. by rewrite (urlparse_https _ _ H).
  - split; [by left|]. intros parsed H. rewrite Hparse in H. by injection H as <-.
Qed.

(** X14.  An ASCII text with no colon and no square bracket always gets
    [https://] in front: its parse has no scheme and raises nothing. *)
Theorem auto_prefix_without_colon uri :
  PyStr.all plain_char uri = true →
  auto_prefix uri = Ok ("https://" +:+ uri).
Proof.
  intros Hall.
  assert (∃ parsed, urlparse uri = Ok parsed ∧ scheme parsed = EmptyString)
    as (parsed & Hparse & Hscheme); [|by eapply auto_prefix_without_scheme].
  unfold urlparse.
  set (url := PyStr.remove unsafe_url_byte (PyStr.lstrip c0_control_or_space uri)).
  assert (PyStr.all plain_char url = true) as Hurl
    by by apply all_remove, all_lstrip.
  assert (split_scheme url = (EmptyString, url)) as ->.
  { unfold split_scheme. rewrite find_None; [done|].
    by eapply all_contains. }
  unfold parse_netloc. destruct (String.prefix "//" url); [|by eauto].
  unfold splitnetloc.
  pose proof (all_break _ netloc_delimiter _ (all_drop _ 2 _ Hurl)) as Hnet.
  destruct (PyStr.break _ _) as [netloc' rest]. cbn in Hnet.
  rewrite (all_contains _ "["%char _ Hnet), (all_contains _ "]"%char _ Hnet) by done.
  cbn. unfold checknetloc. case_decide; [by eauto|].
  rewrite (all_impl plain_char PyStr.isascii); [by eauto| |done].
  intros c Hc. by apply plain_char_facts in Hc as [? _].
Qed.

(** X15.  A host with a port and no scheme, such as [example.com:8080], is
    returned as it is: the text before the colon is read as the scheme, so
    no [https://] is added. *)
Theorem auto_prefix_host_port c host port :
  PyStr.isascii_alpha c = true →
  PyStr.all scheme_chars host = true →
  PyStr.all PyStr.isdigit port = true →
  auto_prefix (String c host +:+ ":" +:+ port) = Ok (String c host +:+ ":" +:+ port).
Proof.
  intros Hc Hhost Hport.
  pose proof (letter_facts _ Hc) as [Hsc Hc0].
  assert (PyStr.all scheme_chars (String c host) = true) as Hname
    by (cbn; by rewrite Hsc, Hhost).
  assert (PyStr.contains ":"%char (String c host) = false) as Hcolon.
  { apply (all_contains scheme_chars); done. }
  eapply (auto_prefix_with_scheme _ (mkParseResult (PyStr.lower (String c host)) EmptyString));
    [|done].
  unfold urlparse.
  assert (PyStr.lstrip c0_control_or_space (String c host +:+ ":" +:+ port)
          = String c host +:+ ":" +:+ port) as ->.
  { rewrite append_cons. cbn. by rewrite Hc0. }
  rewrite remove_id.
  2:{ rewrite !all_append. rewrite !andb_true_iff. split; [|split; [done|]].
      - eapply all_impl; [|exact Hname]. intros a Ha.
        by apply scheme_char_facts in Ha as [-> _].
      - eapply all_impl; [|exact Hport]. intros a Ha.
        by apply digit_facts in Ha as [-> _]. }
  unfold split_scheme.
  change (":" +:+ port) with (String ":" port).
  rewrite (find_append _ _ _ Hcolon). cbn [String.length].
  rewrite (take_append (String c host)), (drop_append (String c host)), Hname.
  rewrite append_cons, Hc. cbn [andb].
  unfold parse_netloc.
  destruct port as [|d port]; [done|].
  cbn in Hport. apply andb_true_iff in Hport as [Hd _].
  apply digit_facts in Hd as [_ Hd]. cbn [String.prefix].
  by destruct (ascii_dec "/" d) as [<-|].
Qed.

(** ** More on the form fields *)

Lemma split_cons sep s : ∃ w ws, PyStr.split sep s = w :: ws.
Proof.
  induction s as [|c s (w & ws & IH)]; cbn; [by eauto|].
  case_decide; [by eauto|]. rewrite IH. by eauto.
Qed.

Lemma split_append sep s1 s2 :
  PyStr.split sep (s1 +:+ String sep s2) = PyStr.split sep s1 ++ PyStr.split sep s2.
Proof.
  induction s1 as [|c s1 IH].
  - change (EmptyString +:+ String sep s2) with (String sep s2).
    cbn. by rewrite decide_True.
  - rewrite append_cons. cbn. case_decide; [by rewrite IH|].
    rewrite IH. by destruct (split_cons sep s1) as (w & ws & ->).
Qed.

Lemma contains_split c sep s field :
  PyStr.contains c s = false → field ∈ PyStr.split sep s →
  PyStr.contains c field = false.
Proof.
  revert field. induction s as [|a s IH]; intros field; cbn.
  - by intros _ ->%list_elem_of_singleton.
  - case_decide as Hac; [done|]. intros Hs. case_decide.
    + intros [->|Hin]%elem_of_cons; [done|by apply IH].
    + destruct (PyStr.split sep s) as [|w ws] eqn:E.
      * intros ->%list_elem_of_singleton. cbn. by rewrite decide_False.
      * intros [->|Hin]%elem_of_cons.
        -- cbn. rewrite decide_False by done. apply IH; [done|left].
        -- apply IH; [done|by right].
Qed.

(** The fields of a body followed by [&] and more text. *)
Lemma parse_qsl_append qs more :
  parse_qsl (qs +:+ "&" +:+ more) = parse_qsl qs ++ parse_qsl more.
Proof.
  unfold parse_qsl, query_args.
  change ("&" +:+ more) with (String "&" more).
  rewrite decide_False by by destruct qs.
  rewrite split_append, bind_app. f_equal.
  - by case_decide as H; [rewrite H|].
  - by case_decide as H; [rewrite H|].
Qed.

Lemma values_of_app key pairs1 pairs2 :
  values_of key (pairs1 ++ pairs2) = values_of key pairs1 ++ values_of key pairs2.
Proof. unfold values_of. by rewrite filter_app, fmap_app. Qed.

(** [params[key][0]] is the value of the first pair named [key]. *)
Lemma field_head qs key :
  parse_qs qs !! key ≫= head = head (values_of key (parse_qsl qs)).
Proof. rewrite parse_qs_lookup. by destruct (values_of _ _). Qed.

Lemma field_head_append qs more key value :
  parse_qs qs !! key ≫= head = Some value →
  parse_qs (qs +:+ "&" +:+ more) !! key ≫= head = Some value.
Proof.
  rewrite !field_head, parse_qsl_append, values_of_app.
  by destruct (values_of key (parse_qsl qs)).
Qed.

(** X16.  When a form has both fields, whatever follows it after a further [&] is
    ignored: a field that is repeated counts with its first non-blank value. *)
Theorem do_POST_ignores_later_fields body more net w shortname raw :
  shortname_of body = Some shortname → longuri_of body = Some raw →
  do_POST (body +:+ "&" +:+ more) net w = do_POST body net w.
Proof.
  intros Hs Hl.
  rewrite (do_POST_fields body _ _ _ _ Hs Hl).
  apply do_POST_fields; by apply field_head_append.
Qed.

(** X17.  A body without any [=], the empty body included, has no field: it is
    answered with the 400 and the world is left as it was. *)
Theorem do_POST_without_equals_sign body net w :
  PyStr.contains "="%char body = false →
  do_POST body net w = (Ok missing_fields, w).
Proof.
  intros Hbody. apply do_POST_missing. left.
  assert (parse_qsl body = []) as Hnone; [|by unfold parse_qs; rewrite Hnone].
  unfold parse_qsl, query_args. case_decide; [done|].
  assert (∀ field, field ∈ PyStr.split "&"%char body → parse_field field = [])
    as Hfields.
  { intros field Hin. unfold parse_field, PyStr.split1.
    rewrite find_None by by eapply contains_split. by case_decide. }
  induction (PyStr.split "&"%char body) as [|field fields IH]; [done|].
  cbn. rewrite Hfields by left. apply IH. intros f Hin. apply Hfields. by right.
Qed.

End Server.

(** * Concrete runs

    The statements below are closed.  They use a parser without the two
    further validations and the decoder on well-formed input; on the texts
    used here neither is consulted, since no network location has a bracket
    pair or a non-ASCII byte and no text has a percent sign. *)

Lemma decode_wellformed_nonempty bytes :
  bytes ≠ EmptyString → decode_wellformed bytes ≠ EmptyString.
Proof. exact id. Qed.

(** No behaviour of the two validations of the parser makes [auto_prefix]
    idempotent: at the input [[] the first normalization returns
    [https://[] and the second one raises. *)
Lemma auto_prefix_not_idempotent :
  ¬ ∃ check_bracketed_netloc checknetloc_nfkc,
      ∀ uri,
        auto_prefix check_bracketed_netloc checknetloc_nfkc uri
          ≫= auto_prefix check_bracketed_netloc checknetloc_nfkc
        = auto_prefix check_bracketed_netloc checknetloc_nfkc uri.
Proof. intros (cb & cn & H). specialize (H "["). discriminate H. Qed.

Lemma auto_prefix_idempotent_witness :
  auto_prefix accept_netloc accept_netloc "example.com" = Ok "https://example.com"
  ∧ auto_prefix accept_netloc accept_netloc "https://example.com"
    = Ok "https://example.com".
Proof.
  split; [reflexivity|].
  destruct (auto_prefix accept_netloc accept_netloc "https://example.com")
    as [final'|e] eqn:E; [|discriminate E].
  f_equal.
  exact (auto_prefix_idempotent_when_it_returns accept_netloc accept_netloc
           "example.com" "https://example.com" final' eq_refl E).
Defined.

Lemma auto_prefix_adds_scheme_witness :
  urlparse accept_netloc accept_netloc "localhost/x" = Ok (mkParseResult "" "")
  ∧ auto_prefix accept_netloc accept_netloc "localhost/x" = Ok "https://localhost/x".
Proof.
  split; [reflexivity|].
  apply (proj1 (auto_prefix_adds_scheme_only_when_absent accept_netloc accept_netloc)
           "localhost/x" (mkParseResult "" "")); reflexivity.
Defined.

(** Not every request has a timeout: the GET that a registration issues
    carries none, whatever the parser's validations and the decoder do. *)
Lemma probe_without_timeout :
  ¬ ∃ check_bracketed_netloc checknetloc_nfkc utf8_decode_replace,
      ∀ body net,
        Forall (λ req, is_Some (timeout req))
          (requested (do_POST check_bracketed_netloc checknetloc_nfkc
                        utf8_decode_replace body net initial).2).
Proof.
  intros (cb & cn & dec & H).
  specialize (H "longuri=example.com&shortname=x" (always (Response 200))).
  rewrite do_POST_accepts_request in H.
  apply Forall_inv in H. by destruct H.
Qed.

(** C10, as stated, fails: the body [shortname=&shortname=a&longuri=x]
    carries a [shortname] field with an empty value, and yet its request is
    not answered with the 400: the later value [a] is registered. *)
Lemma blank_field_beside_a_value :
  ¬ ∃ check_bracketed_netloc checknetloc_nfkc utf8_decode_replace,
      ∀ body net w,
        "shortname=" ∈ query_args body ∨ "longuri=" ∈ query_args body →
        do_POST check_bracketed_netloc checknetloc_nfkc utf8_decode_replace
          body net w = (Ok missing_fields, w).
Proof.
  intros (cb & cn & dec & H).
  specialize (H "shortname=&shortname=a&longuri=x" (always (Response 200)) initial).
  rewrite (do_POST_fields _ _ _ _ "a" "x") in H by reflexivity.
  rewrite (register_probe _ _ _ _ "https://x") in H by reflexivity.
  assert ("shortname=" ∈ query_args "shortname=&shortname=a&longuri=x") as Hin
    by (vm_compute; left).
  specialize (H (or_introl Hin)). discriminate H.
Qed.

Lemma blank_fields_witness :
  (∀ qs name value,
     (name, value) ∈ parse_qsl decode_wellformed qs → value ≠ EmptyString)
  ∧ parse_qs decode_wellformed "shortname=&longuri=x" !! "shortname" = None
  ∧ do_POST accept_netloc accept_netloc decode_wellformed "shortname=&longuri=x"
      (always (Response 200)) initial = (Ok missing_fields, initial).
Proof.
  pose proof (blank_fields_are_dropped accept_netloc accept_netloc
                decode_wellformed decode_wellformed_nonempty) as (H1 & _ & H3 & _).
  split; [exact H1|]. split; [reflexivity|]. apply H3.
Defined.

(** The scenario of a live target: [golang] is registered for [golang.org];
    another name is registered and the root page is asked for; [golang] then
    still resolves to [https://golang.org]. *)
Lemma lookup_after_register_witness :
  let body := "longuri=golang.org&shortname=golang" in
  let net := always (Response 200) in
  let accepted := do_POST accept_netloc accept_netloc decode_wellformed body net initial in
  let events := [(net, POST "longuri=example.com&shortname=other");
                 (always RequestException, GET "/")] in
  let w' := run accept_netloc accept_netloc decode_wellformed events accepted.2 in
  shortname_of decode_wellformed body = Some "golang"
  ∧ longuri_of decode_wellformed body = Some "golang.org"
  ∧ accepted.1 = Ok (see_other "/")
  ∧ unregistered accept_netloc accept_netloc decode_wellformed "golang" events
      accepted.2 = true
  ∧ do_GET_on decode_wellformed false "/golang" net w'
    = (Ok (see_other "https://golang.org"), w').
Proof.
  intros body net accepted events w'.
  split; [reflexivity|]. split; [reflexivity|]. split; [reflexivity|].
  split; [reflexivity|].
  destruct (lookup_after_register accept_netloc accept_netloc decode_wellformed
              decode_wellformed_nonempty body net initial "golang" "golang.org"
              eq_refl eq_refl eq_refl) as (longuri & Hprefix & Hafter).
  injection Hprefix as <-.
  exact (proj2 (Hafter events eq_refl) false "/golang" net eq_refl).
Defined.

(** The scenario of a dead target: the request for
    [http://nonexistent.invalid.example] fails, and [bad] stays unknown. *)
Lemma resolve_unregistered_witness :
  let events := [(always RequestException,
                  POST "longuri=http://nonexistent.invalid.example&shortname=bad")] in
  let w := run accept_netloc accept_netloc decode_wellformed events initial in
  unregistered accept_netloc accept_netloc decode_wellformed "bad" events initial = true
  ∧ do_GET decode_wellformed "/bad" (always RequestException) w
    = (Ok (unknown_name "bad"), w).
Proof.
  intros events w. split; [reflexivity|].
  refine (proj2 (resolve_unregistered accept_netloc accept_netloc decode_wellformed
                   events "bad" eq_refl) "/bad" _ eq_refl _).
  discriminate.
Defined.

(** ** Concrete runs of the further properties *)

Lemma do_POST_accepted_iff_witness :
  let body := "longuri=golang.org&shortname=golang" in
  shortname_of decode_wellformed body = Some "golang"
  ∧ longuri_of decode_wellformed body = Some "golang.org"
  ∧ (do_POST accept_netloc accept_netloc decode_wellformed body
       (always (Response 200)) initial).1 = Ok (see_other "/").
Proof.
  intros body. split; [reflexivity|]. split; [reflexivity|].
  apply (do_POST_accepted_iff accept_netloc accept_netloc decode_wellformed body
           (always (Response 200)) initial "golang" "golang.org" eq_refl eq_refl).
  exists "https://golang.org", 200%Z. repeat split; discriminate.
Defined.

Lemma do_POST_rejects_on_RequestException_witness :
  let body := "longuri=http://nonexistent.invalid.example&shortname=bad" in
  let uri := "http://nonexistent.invalid.example" in
  auto_prefix accept_netloc accept_netloc uri = Ok uri
  ∧ do_POST accept_netloc accept_netloc decode_wellformed body
      (always RequestException) initial
    = (Ok (not_fetched uri),
       mkWorld (MEMORY initial) (requested initial ++ [mkRequest "GET" uri None])).
Proof.
  intros body uri. split; [reflexivity|].
  exact (do_POST_rejects_on_RequestException accept_netloc accept_netloc
           decode_wellformed body (always RequestException) initial "bad" uri uri
           eq_refl eq_refl eq_refl eq_refl eq_refl).
Defined.


Lemma stored_uris_have_a_scheme_witness :
  let events := [(always (Response 200), POST "longuri=golang.org&shortname=golang")] in
  MEMORY (run accept_netloc accept_netloc decode_wellformed events initial) !! "golang"
    = Some "https://golang.org"
  ∧ auto_prefix accept_netloc accept_netloc "https://golang.org"
    = Ok "https://golang.org".
Proof.
  intros events. split; [reflexivity|].
  exact (proj1 (stored_uris_have_a_scheme accept_netloc accept_netloc
                  decode_wellformed events "golang" "https://golang.org" eq_refl)).
Defined.


Lemma registered_is_listed_witness :
  let body := "longuri=golang.org&shortname=golang" in
  let after := do_POST accept_netloc accept_netloc decode_wellformed body
                 (always (Response 200)) initial in
  after.1 = Ok (see_other "/")
  ∧ ∃ longuri entries,
      auto_prefix accept_netloc accept_netloc "golang.org" = Ok longuri
      ∧ ("golang", longuri) ∈ entries
      ∧ do_GET decode_wellformed "/" (always RequestException) after.2
        = (Ok (mkResponse 200 [("Content-type", "text/html")]
                 (FORM_format (PyStr.join newline (format_entry <$> entries)))),
           after.2).
Proof.
  intros body after. split; [reflexivity|].
  exact (registered_is_listed accept_netloc accept_netloc decode_wellformed body
           (always (Response 200)) initial "golang" "golang.org"
           (always RequestException) eq_refl eq_refl eq_refl).
Defined.

Lemma auto_prefix_result_witness :
  auto_prefix accept_netloc accept_netloc "example.com" = Ok "https://example.com"
  ∧ ∀ parsed, urlparse accept_netloc accept_netloc "https://example.com" = Ok parsed →
      scheme parsed ≠ EmptyString.
Proof.
  split; [reflexivity|].
  exact (proj2 (auto_prefix_result accept_netloc accept_netloc "example.com"
                  "https://example.com" eq_refl)).
Defined.

Lemma auto_prefix_without_colon_witness :
  PyStr.all plain_char "example.com/a?b=c" = true
  ∧ auto_prefix accept_netloc accept_netloc "example.com/a?b=c"
    = Ok "https://example.com/a?b=c".
Proof.
  split; [reflexivity|].
  exact (auto_prefix_without_colon accept_netloc accept_netloc "example.com/a?b=c"
           eq_refl).
Defined.

Lemma auto_prefix_host_port_witness :
  auto_prefix accept_netloc accept_netloc "example.com:8080" = Ok "example.com:8080".
Proof.
  exact (auto_prefix_host_port accept_netloc accept_netloc "e"%char "xample.com"
           "8080" eq_refl eq_refl eq_refl).
Defined.

Lemma do_POST_ignores_later_fields_witness :
  let net := always (Response 200) in
  do_POST accept_netloc accept_netloc decode_wellformed
    "longuri=a.org&shortname=a&shortname=b&longuri=" net initial
  = do_POST accept_netloc accept_netloc decode_wellformed
      "longuri=a.org&shortname=a" net initial.
Proof.
  intros net.
  exact (do_POST_ignores_later_fields accept_netloc accept_netloc decode_wellformed
           "longuri=a.org&shortname=a" "shortname=b&longuri=" net initial
           "a" "a.org" eq_refl eq_refl).
Defined.

Lemma do_POST_without_equals_sign_witness :
  do_POST accept_netloc accept_netloc decode_wellformed "hello&world"
    (always (Response 200)) initial
  = (Ok missing_fields, initial).
Proof.
  exact (do_POST_without_equals_sign accept_netloc accept_netloc decode_wellformed
           "hello&world" (always (Response 200)) initial eq_refl).
Defined.
